(** * supervised/benchmark.py: name resolution, model wrapper and the
      train/evaluate orchestration

    A shallow embedding of [src/supervised/benchmark.py].  The file has three
    layers, and so has this development:

    - the entry point, which resolves two command-line strings against the
      [dataset.Dataset] and [algorithm.Algorithm] enumerations;
    - the [Model] wrapper (a [pl.LightningModule]) with its three step
      callbacks and its optimizer;
    - [train_and_evaluate], a straight-line script over the deep-learning
      framework.

    Everything the script calls but does not define (torch, pytorch_lightning,
    the [dataset] and [supervised.algorithm] modules, the case mapping of
    Unicode text outside ASCII) is taken as an interface: a type class whose
    fields are the outcomes of the external calls.  The script itself is written in a state-and-exception monad over
    a store of Python objects and a trace of the external calls. *)

From Stdlib Require Import ZArith QArith Ascii String.
From stdpp Require Import base option list strings gmap.

Local Open Scope string_scope.
Local Open Scope Z_scope.
Local Open Scope list_scope.

(** ** Exceptions and the monad of the script *)

(** The exceptions the script can see.  [KeyError] and [NotImplementedError]
    are raised by the script itself; anything raised inside the framework is
    an [ExternalError] that the script never catches. *)
Inductive Exn : Type :=
| KeyError (msg : string)
| NotImplementedError (msg : string)
| ExternalError (description : string).

(** Statements over a mutable state [S]: a run ends in a value or in a raised
    exception, and the state changes made before a raise are kept. *)
Definition Py (S A : Type) : Type := S → S * (Exn + A).

#[export] Instance Py_ret {S} : MRet (Py S) := λ A a s, (s, inr a).

#[export] Instance Py_bind {S} : MBind (Py S) := λ A B f m s,
  match m s with
  | (s', inr a) => f a s'
  | (s', inl e) => (s', inl e)
  end.

Definition raise {S A} (e : Exn) : Py S A := λ s, (s, inl e).

(** An outcome that is a value, not a raised exception. *)
Definition returns {A} (r : Exn + A) : Prop := ∃ a, r = inr a.

(** A pure computation that may raise, used as a statement. *)
Definition lift {S A} (r : Exn + A) : Py S A := λ s, (s, r).

(** ** Strings *)

(** A Python string is kept in its UTF-8 form.  [str.upper()] maps a string
    character by character.  On ASCII it turns the letters a-z into A-Z and
    leaves every other character alone.  What it does to the characters
    outside ASCII (in UTF-8, the runs of bytes from 128 on) is written in the
    Unicode character database, which is not part of the sources: the
    mapping of such a run is an interface. *)
Class Unicode := {
  upper_non_ascii : string → string;
}.

Definition is_ascii (c : ascii) : bool := (N_of_ascii c <? 128)%N.

Definition ascii_upper (c : ascii) : ascii :=
  let n := N_of_ascii c in
  if ((97 <=? n) && (n <=? 122))%N then ascii_of_N (n - 32) else c.

Section upper.
Context {U : Unicode}.

(** The upper-case form of a pending run of non-ASCII text. *)
Definition flush (run : string) : string :=
  match run with
  | EmptyString => EmptyString
  | _ => upper_non_ascii run
  end.

(** [upper_from run s]: the upper-case form of [run +:+ s], where [run] is
    the non-ASCII text read since the last ASCII character. *)
Fixpoint upper_from (run : string) (s : string) : string :=
  match s with
  | EmptyString => flush run
  | String c s' =>
      if is_ascii c then
        flush run +:+ String (ascii_upper c) (upper_from EmptyString s')
      else upper_from (run +:+ String c EmptyString) s'
  end.

(** [s.upper()]. *)
Definition upper (s : string) : string := upper_from EmptyString s.
End upper.

(** [needle in haystack] on strings. *)
Fixpoint contains (needle haystack : string) : bool :=
  String.prefix needle haystack ||
  match haystack with
  | EmptyString => false
  | String _ rest => contains needle rest
  end.

(** [t] is [s] with something before and after it. *)
Definition substring_of (s t : string) : Prop :=
  ∃ pre post, t = pre +:+ s +:+ post.

(** [', '.join(l)]. *)
Fixpoint join (sep : string) (l : list string) : string :=
  match l with
  | [] => ""
  | [x] => x
  | x :: rest => x +:+ sep +:+ join sep rest
  end.

(** [repr] of a string that needs no escaping (an enumeration name is an
    identifier): the string between single quotes. *)
Definition repr_str (s : string) : string := "'" +:+ s +:+ "'".

(** ['%s' % l] for a list of such strings: [['A', 'B']]. *)
Definition str_list (l : list string) : string :=
  "[" +:+ join ", " (repr_str <$> l) +:+ "]".

(** ** Enumerations *)

(** What the script uses of an [enum.Enum] class: its members in definition
    order (the order of iteration), the name of each member, and the fact
    that [enum] refuses a class body that defines a name twice. *)
Class PyEnum (A : Type) := {
  enum_members : list A;
  enum_name : A → string;
  enum_members_all : ∀ a : A, a ∈ enum_members;
  enum_names_NoDup : NoDup (enum_name <$> enum_members);
}.

Section enum.
Context {A : Type} {E : PyEnum A}.

(** [[m.name for m in cls]]. *)
Definition names : list string := enum_name <$> enum_members.

(** [cls._member_map_]: the dictionary behind [cls[name]]. *)
Definition member_map : gmap string A :=
  list_to_map ((λ a, (enum_name a, a)) <$> enum_members).

(** [cls[key]]: the member of that name, or [KeyError(key)]. *)
Definition getitem (key : string) : Exn + A :=
  match member_map !! key with
  | Some a => inr a
  | None => inl (KeyError (repr_str key))
  end.
End enum.

(** The module [supervised.algorithm], as far as the script uses it. *)
Module algorithm.

Module Algorithm.
(** Modelled from the spec: [supervised/algorithm.py], which declares the
    enumeration [Algorithm], is not part of the sources at hand.  Its members
    are the six identifiers that the dispatch of [train_and_evaluate] names. *)
Inductive t : Type :=
| LINEAR | DNN | CNN | SLIM | HIGHWAY_NETWORK | RESNET.

Definition name (a : t) : string :=
  match a with
  | LINEAR => "LINEAR"
  | DNN => "DNN"
  | CNN => "CNN"
  | SLIM => "SLIM"
  | HIGHWAY_NETWORK => "HIGHWAY_NETWORK"
  | RESNET => "RESNET"
  end.

Definition members : list t :=
  [LINEAR; DNN; CNN; SLIM; HIGHWAY_NETWORK; RESNET].

#[global] Instance eq_dec : EqDecision t.
Proof. solve_decision. Defined.
End Algorithm.

(** The network classes of the module, one per member.  A value of [Net] is
    a constructor call with the arguments it is given:
    [algorithm.Linear(dimensions, labels)] and so on. *)
Inductive Net (Dims Labels : Type) : Type :=
| Linear (dimensions : Dims) (labels : Labels)
| DNN (dimensions : Dims) (labels : Labels) (num_layers : Z)
| CNN (dimensions : Dims) (labels : Labels)
| Slim (dimensions : Dims) (labels : Labels)
| HighwayNetwork (dimensions : Dims) (labels : Labels) (num_layers : Z)
| ResidualNetwork (dimensions : Dims) (labels : Labels) (n : Z).

Arguments Linear {Dims Labels}.
Arguments DNN {Dims Labels}.
Arguments CNN {Dims Labels}.
Arguments Slim {Dims Labels}.
Arguments HighwayNetwork {Dims Labels}.
Arguments ResidualNetwork {Dims Labels}.

End algorithm.

#[export] Program Instance Algorithm_enum : PyEnum algorithm.Algorithm.t := {|
  enum_members := algorithm.Algorithm.members;
  enum_name := algorithm.Algorithm.name;
|}.
Next Obligation. intros []; unfold algorithm.Algorithm.members; set_solver. Qed.
Next Obligation. by compute_done. Qed.

(** ** The entry point: resolving the two names *)

Section resolution.
(** [dataset.py] is not part of the sources at hand: the enumeration
    [dataset.Dataset] is any enumeration. *)
Context {U : Unicode} {Dataset : Type} {E : PyEnum Dataset}.

Definition dataset_names : list string := names (A := Dataset).
Definition algorithm_names : list string := names (A := algorithm.Algorithm.t).

(** Lines 110-114. *)
Definition resolve_dataset (arg : string) : Exn + Dataset :=
  match getitem (upper arg) with
  | inr dset => inr dset
  | inl (KeyError _) =>
      inl (KeyError ("Invalid dataset (" +:+ arg +:+ "), must be in "
                     +:+ str_list dataset_names))
  | inl e => inl e
  end.

(** Lines 116-120. *)
Definition resolve_algorithm (arg : string) : Exn + algorithm.Algorithm.t :=
  match getitem (upper arg) with
  | inr algo => inr algo
  | inl (KeyError _) =>
      inl (KeyError ("Invalid algorithm (" +:+ arg +:+ "), must be in "
                     +:+ str_list algorithm_names))
  | inl e => inl e
  end.
End resolution.

(** ** The [Model] wrapper *)

(** The tensor operations of torch that the wrapper calls.  A scalar (a loss,
    an accuracy) is a tensor like any other. *)
Class Torch := {
  Tensor : Type;
  (** [F.log_softmax(input, dim=dim)] *)
  log_softmax : Tensor → Z → Tensor;
  (** [F.nll_loss(input, target)] *)
  nll_loss : Tensor → Tensor → Tensor;
  (** [torch.argmax(input, dim=dim)] *)
  argmax : Tensor → Z → Tensor;
  (** [a == b], [t.float()], [t.mean()] *)
  tensor_eq : Tensor → Tensor → Tensor;
  float : Tensor → Tensor;
  mean : Tensor → Tensor;
}.

(** [torch.optim.Adagrad(params, lr=lr)]; the literal [1e-3] is [1/1000]. *)
Inductive Optimizer (P : Type) : Type :=
| Adagrad (params : P) (lr : Q).
Arguments Adagrad {P}.

Module Model.
Section Model.
Context {T : Torch}.

(** The wrapper as its callbacks see it: [self.model] is the wrapped
    network, called on a batch of inputs. *)
Record t : Type := { model : Tensor → Tensor }.

(** What [self.log] has recorded so far, oldest first. *)
Definition Metrics : Type := list (string * Tensor).

Definition log (name : string) (value : Tensor) : Py Metrics unit :=
  λ so_far, ((so_far ++ [(name, value)])%list, inr ()).

Definition forward (self : t) (x : Tensor) : Tensor :=
  log_softmax (model self x) 1.

Definition training_step (self : t) (batch : Tensor * Tensor) (_ : Z)
  : Py Metrics Tensor :=
  let '(x, y) := batch in
  let y_hat := forward self x in
  let loss := nll_loss y_hat y in
  log "train_loss" loss;;
  mret loss.

Definition validation_step (self : t) (batch : Tensor * Tensor) (_ : Z)
  : Py Metrics (list (string * Tensor)) :=
  let '(x, y) := batch in
  let y_hat := forward self x in
  let loss := nll_loss y_hat y in
  let pred := argmax y_hat 1 in
  let accuracy := mean (float (tensor_eq pred y)) in
  log "val_loss" loss;;
  log "val_acc" accuracy;;
  mret [("val_loss", loss); ("val_acc", accuracy)].

Definition test_step (self : t) (batch : Tensor * Tensor) (_ : Z)
  : Py Metrics (list (string * Tensor)) :=
  let '(x, y) := batch in
  let y_hat := forward self x in
  let loss := nll_loss y_hat y in
  let pred := argmax y_hat 1 in
  let accuracy := mean (float (tensor_eq pred y)) in
  log "test_loss" loss;;
  log "test_acc" accuracy;;
  mret [("test_loss", loss); ("test_acc", accuracy)].

(** [parameters] stands for [self.parameters()]. *)
Definition configure_optimizers {P : Type} (parameters : P) : Optimizer P :=
  let optimizer := Adagrad parameters (1 # 1000) in
  optimizer.

(** The loss and the accuracy of a batch, as the steps compute them. *)
Definition batch_loss (self : t) (batch : Tensor * Tensor) : Tensor :=
  nll_loss (forward self batch.1) batch.2.

Definition batch_accuracy (self : t) (batch : Tensor * Tensor) : Tensor :=
  mean (float (tensor_eq (argmax (forward self batch.1) 1) batch.2)).

(** The metrics a step logs when it starts from an empty log. *)
Definition logged {A} (step : Py Metrics A) : Metrics := (step []).1.

(** A step reports a value when it logs it under some name. *)
Definition reports {A} (step : Py Metrics A) (value : Tensor) : Prop :=
  ∃ name, (name, value) ∈ logged step.
End Model.
End Model.

(** ** The framework behind [train_and_evaluate] *)

(** Keyword arguments handed on with [**kwargs], in the order given. *)
Inductive PyVal : Type :=
| PyInt (z : Z)
| PyBool (b : bool).

Definition Kwargs : Type := list (string * PyVal).

(** The calls that leave the script.  Each field is the outcome of one call:
    the value it returns, or the exception it raises.  [dataset.train_test]
    and the classes of [supervised.algorithm] belong to modules that are not
    part of the sources at hand; the trainer and the loaders belong to
    pytorch_lightning and torch. *)
Class Framework (Dataset : Type) := {
  Data : Type;
  Dims : Type;
  Labels : Type;
  Params : Type;
  (** [dataset.train_test(dset, augment=augment)] *)
  train_test_outcome : Dataset → bool → Exn + (Data * Data * Dims * Labels);
  (** [algorithm.Linear(dimensions, labels)] and the like: the parameters of
      the fresh network *)
  construct_outcome : algorithm.Net Dims Labels → Exn + Params;
  (** [pl.Trainer(gpus=gpus, precision=precision)] *)
  Trainer_outcome : Z → Z → Exn + unit;
  (** [data.DataLoader(dataset, **kwargs)] *)
  DataLoader_outcome : Data → Kwargs → Exn + unit;
  (** [trainer.fit]: from the trainer's settings, the anomaly-detection mode,
      the network, its parameters and the loader, the parameters training
      leaves behind and whether it raised *)
  fit_outcome : Z * Z → bool → algorithm.Net Dims Labels → Params →
                Data * Kwargs → Params * (Exn + unit);
  (** [trainer.test] *)
  test_outcome : Z * Z → algorithm.Net Dims Labels → Params →
                 Data * Kwargs → Exn + unit;
}.

Definition ref : Type := nat.

(** Context managers: [torch.autograd.detect_anomaly()], which remembers the
    mode it found when it was created, and [contextlib.suppress] applied to exception classes,
    given by the names of the classes it swallows. *)
Inductive ContextManager : Type :=
| detect_anomaly (prev : bool)
| suppress (exceptions : list string).

Definition exn_class (e : Exn) : string :=
  match e with
  | KeyError _ => "KeyError"
  | NotImplementedError _ => "NotImplementedError"
  | ExternalError _ => "Exception"
  end.

(** The truth value of [context.__exit__(type, value, traceback)]. *)
Definition swallows (context : ContextManager) (e : Exn) : bool :=
  match context with
  | detect_anomaly _ => false
  | suppress exceptions => bool_decide (exn_class e ∈ exceptions)
  end.

Section world.
Context {Dataset : Type} {F : Framework Dataset}.

Local Abbreviation Net := (algorithm.Net Dims Labels).

(** Python objects the script holds references to. *)
Inductive Obj : Type :=
| Network (net : Net) (params : Params)
| LightningModule (model : ref)
| TrainerObj (gpus precision : Z)
| LoaderObj (dataset : Data) (kwargs : Kwargs)
| ContextObj (manager : ContextManager).

(** Calls into the framework, with their arguments. *)
Inductive Call : Type :=
| call_train_test (dset : Dataset) (augment : bool)
| call_Net (net : Net)
| call_Trainer (gpus precision : Z)
| call_DataLoader (dataset : Data) (kwargs : Kwargs)
| call_set_printoptions (precision : Z) (sci_mode : bool)
| call_fit (trainer lightning_model loader : ref)
| call_test (trainer lightning_model loader : ref).

(** What an observer of the process sees, in program order: a call starts,
    a call returns (with the object it created, if any), a [with] block is
    entered or left. *)
Inductive Event : Type :=
| Called (c : Call)
| Returned (c : Call) (obj : option ref)
| Enter (context : ContextManager)
| Exit (context : ContextManager).

Record World : Type := {
  heap : list Obj;
  trace : list Event;
  anomaly_enabled : bool;
}.

Definition emit (e : Event) : Py World unit := λ w,
  ({| heap := heap w; trace := (trace w ++ [e])%list;
      anomaly_enabled := anomaly_enabled w |}, inr ()).

Definition alloc (o : Obj) : Py World ref := λ w,
  ({| heap := (heap w ++ [o])%list; trace := trace w;
      anomaly_enabled := anomaly_enabled w |}, inr (length (heap w))).

Definition store (r : ref) (o : Obj) : Py World unit := λ w,
  ({| heap := <[r := o]> (heap w); trace := trace w;
      anomaly_enabled := anomaly_enabled w |}, inr ()).

Definition set_anomaly_enabled (mode : bool) : Py World unit := λ w,
  ({| heap := heap w; trace := trace w; anomaly_enabled := mode |}, inr ()).

Definition is_anomaly_enabled : Py World bool := λ w,
  (w, inr (anomaly_enabled w)).

Definition deref (r : ref) : Py World Obj := λ w,
  match heap w !! r with
  | Some o => (w, inr o)
  | None => (w, inl (ExternalError "dangling reference"))
  end.

Definition type_error {A} : Py World A := raise (ExternalError "TypeError").

(** [dataset.train_test(dset, augment=augment)] *)
Definition dataset_train_test (dset : Dataset) (augment : bool)
  : Py World (Data * Data * Dims * Labels) :=
  emit (Called (call_train_test dset augment));;
  split ← lift (train_test_outcome dset augment);
  emit (Returned (call_train_test dset augment) None);;
  mret split.

(** A constructor call of [supervised.algorithm]: a new network object. *)
Definition construct (net : Net) : Py World ref :=
  emit (Called (call_Net net));;
  params ← lift (construct_outcome net);
  model ← alloc (Network net params);
  emit (Returned (call_Net net) (Some model));;
  mret model.

(** [Model(model)], lines 16-18: the wrapper keeps a reference to the
    network it is given. *)
Definition Model_init (model : ref) : Py World ref :=
  alloc (LightningModule model).

Definition pl_Trainer (gpus precision : Z) : Py World ref :=
  emit (Called (call_Trainer gpus precision));;
  lift (Trainer_outcome gpus precision);;
  trainer ← alloc (TrainerObj gpus precision);
  emit (Returned (call_Trainer gpus precision) (Some trainer));;
  mret trainer.

Definition data_DataLoader (dataset : Data) (kwargs : Kwargs) : Py World ref :=
  emit (Called (call_DataLoader dataset kwargs));;
  lift (DataLoader_outcome dataset kwargs);;
  loader ← alloc (LoaderObj dataset kwargs);
  emit (Returned (call_DataLoader dataset kwargs) (Some loader));;
  mret loader.

Definition torch_set_printoptions (precision : Z) (sci_mode : bool)
  : Py World unit :=
  emit (Called (call_set_printoptions precision sci_mode));;
  emit (Returned (call_set_printoptions precision sci_mode) None).

Definition torch_autograd_detect_anomaly : Py World ref :=
  prev ← is_anomaly_enabled;
  alloc (ContextObj (detect_anomaly prev)).

Definition contextlib_suppress (exceptions : list string) : Py World ref :=
  alloc (ContextObj (suppress exceptions)).

(** The trainer's settings, the network behind a wrapper and the contents
    of a loader, read through the references the script passes. *)
Definition trainer_settings (trainer : ref) : Py World (Z * Z) :=
  o ← deref trainer;
  match o with
  | TrainerObj gpus precision => mret (gpus, precision)
  | _ => type_error
  end.

Definition wrapped_model (lightning_model : ref) : Py World ref :=
  o ← deref lightning_model;
  match o with
  | LightningModule model => mret model
  | _ => type_error
  end.

Definition network (model : ref) : Py World (Net * Params) :=
  o ← deref model;
  match o with
  | Network net params => mret (net, params)
  | _ => type_error
  end.

Definition loader_contents (loader : ref) : Py World (Data * Kwargs) :=
  o ← deref loader;
  match o with
  | LoaderObj dataset kwargs => mret (dataset, kwargs)
  | _ => type_error
  end.

Definition context_manager (context : ref) : Py World ContextManager :=
  o ← deref context;
  match o with
  | ContextObj manager => mret manager
  | _ => type_error
  end.

(** [trainer.fit(lightning_model, loader)]: training updates the parameters
    of the wrapped network in place, whether or not it ends in a raise. *)
Definition trainer_fit (trainer lightning_model loader : ref) : Py World unit :=
  emit (Called (call_fit trainer lightning_model loader));;
  settings ← trainer_settings trainer;
  model ← wrapped_model lightning_model;
  '(net, params) ← network model;
  batches ← loader_contents loader;
  anomaly ← is_anomaly_enabled;
  let '(params', outcome) := fit_outcome settings anomaly net params batches in
  store model (Network net params');;
  lift outcome;;
  emit (Returned (call_fit trainer lightning_model loader) None).

(** [trainer.test(lightning_model, loader)] *)
Definition trainer_test (trainer lightning_model loader : ref) : Py World unit :=
  emit (Called (call_test trainer lightning_model loader));;
  settings ← trainer_settings trainer;
  model ← wrapped_model lightning_model;
  '(net, params) ← network model;
  batches ← loader_contents loader;
  lift (test_outcome settings net params batches);;
  emit (Returned (call_test trainer lightning_model loader) None).

(** [context.__enter__()] and [context.__exit__(...)]. *)
Definition enter (context : ContextManager) : Py World unit :=
  emit (Enter context);;
  match context with
  | detect_anomaly _ => set_anomaly_enabled true
  | suppress _ => mret ()
  end.

Definition exit (context : ContextManager) : Py World unit :=
  match context with
  | detect_anomaly prev => set_anomaly_enabled prev
  | suppress _ => mret ()
  end;;
  emit (Exit context).

(** [with context: body].  The methods of the object behind [context] are
    looked up once.  The block is left through [__exit__] on both paths; an
    exception raised in the body goes on unless [__exit__] swallows it. *)
Definition with_ {A} (context : ref) (body : Py World A) : Py World unit :=
  λ w,
  match context_manager context w with
  | (w0, inl e) => (w0, inl e)
  | (w0, inr manager) =>
      match enter manager w0 with
      | (w1, inl e) => (w1, inl e)
      | (w1, inr _) =>
          match body w1 with
          | (w2, inr _) => exit manager w2
          | (w2, inl e) =>
              match exit manager w2 with
              | (w3, inl e') => (w3, inl e')
              | (w3, inr _) =>
                  (w3, if swallows manager e then inr () else inl e)
              end
          end
      end
  end.

(** Lines 60-75: the dispatch on the algorithm. *)
Definition select_model (algo : algorithm.Algorithm.t)
    (dimensions : Dims) (labels : Labels) : Py World ref :=
  if bool_decide (algo = algorithm.Algorithm.LINEAR) then
    construct (algorithm.Linear dimensions labels)
  else if bool_decide (algo = algorithm.Algorithm.DNN) then
    construct (algorithm.DNN dimensions labels 10)
  else if bool_decide (algo = algorithm.Algorithm.CNN) then
    construct (algorithm.CNN dimensions labels)
  else if bool_decide (algo = algorithm.Algorithm.SLIM) then
    construct (algorithm.Slim dimensions labels)
  else if bool_decide (algo = algorithm.Algorithm.SLIM) then
    construct (algorithm.Slim dimensions labels)
  else if bool_decide (algo = algorithm.Algorithm.HIGHWAY_NETWORK) then
    construct (algorithm.HighwayNetwork dimensions labels 100)
  else if bool_decide (algo = algorithm.Algorithm.RESNET) then
    construct (algorithm.ResidualNetwork dimensions labels 3)
  else
    raise (NotImplementedError
             ("Algorithm not implemented: " +:+ enum_name algo)).

(** Line 83: the context the training call runs in. *)
Definition training_context (debug : bool) : Py World ref :=
  if debug then torch_autograd_detect_anomaly else contextlib_suppress [].

(** Lines 58-87. *)
Definition train_and_evaluate (algo : algorithm.Algorithm.t) (dset : Dataset)
    (augment debug : bool) (kwargs : Kwargs) : Py World ref :=
  '(train, test, dimensions, labels) ← dataset_train_test dset augment;
  model ← select_model algo dimensions labels;
  lightning_model ← Model_init model;
  trainer ← pl_Trainer 1 16;
  train_loader ← data_DataLoader train kwargs;
  test_loader ← data_DataLoader test [("batch_size", PyInt 1024)];
  torch_set_printoptions 4 false;;
  context ← training_context debug;
  with_ context (trainer_fit trainer lightning_model train_loader);;
  trainer_test trainer lightning_model test_loader;;
  mret model.
End world.

(** The result of [parser.parse_args()]. *)
Module args.
Record t : Type := {
  dataset : string;
  algorithm : string;
  augment : bool;
  debug : bool;
}.
End args.

Section main.
Context {U : Unicode} {Dataset : Type} {E : PyEnum Dataset}
  {F : Framework Dataset}.

(** Lines 109-126: the body of the entry point after argument parsing. *)
Definition main (a : args.t) : Py World unit :=
  dset ← lift (resolve_dataset (args.dataset a));
  algo ← lift (resolve_algorithm (args.algorithm a));
  train_and_evaluate algo dset (args.augment a) (args.debug a)
    [("batch_size", PyInt 128); ("num_workers", PyInt 4);
     ("pin_memory", PyBool true); ("shuffle", PyBool true)];;
  mret ().
End main.

Section help.
Context {Dataset : Type} {E : PyEnum Dataset}.

(** Lines 94-101: the help texts of the two positional arguments. *)
Definition dataset_help : string :=
  "Name of the dataset to use. " +:+ "Available options are: "
  +:+ str_list (dataset_names (Dataset := Dataset)).

Definition algorithm_help : string :=
  "Name of the algorithm to use. " +:+ "Available options are: "
  +:+ str_list algorithm_names.
End help.

(** ** Observations on runs *)

#[global] Instance ContextManager_eq_dec : EqDecision ContextManager.
Proof. solve_decision. Defined.

Section observations.
Context {Dataset : Type} {F : Framework Dataset}.

(** The mapping from algorithm to constructor call as the documentation
    states it, one line per algorithm: depth 10 for the deep network, depth
    100 for the highway network, block count 3 for the residual network. *)
Definition documented_mapping (algo : algorithm.Algorithm.t)
    (dimensions : Dims) (labels : Labels) : algorithm.Net Dims Labels :=
  match algo with
  | algorithm.Algorithm.LINEAR => algorithm.Linear dimensions labels
  | algorithm.Algorithm.DNN => algorithm.DNN dimensions labels 10
  | algorithm.Algorithm.CNN => algorithm.CNN dimensions labels
  | algorithm.Algorithm.SLIM => algorithm.Slim dimensions labels
  | algorithm.Algorithm.HIGHWAY_NETWORK =>
      algorithm.HighwayNetwork dimensions labels 100
  | algorithm.Algorithm.RESNET => algorithm.ResidualNetwork dimensions labels 3
  end.

Definition is_fit_call (e : Event) : bool :=
  match e with Called (call_fit _ _ _) => true | _ => false end.

Definition is_fit_return (e : Event) : bool :=
  match e with Returned (call_fit _ _ _) _ => true | _ => false end.

Definition is_test_call (e : Event) : bool :=
  match e with Called (call_test _ _ _) => true | _ => false end.

Definition is_context_event (e : Event) : bool :=
  match e with Enter _ | Exit _ => true | _ => false end.

(** Every call of [trainer.test] comes after a return of [trainer.fit]. *)
Definition fit_precedes_test (evs : list Event) : Prop :=
  ∀ pre e post, evs = pre ++ e :: post → is_test_call e = true →
    ∃ e', e' ∈ pre ∧ is_fit_return e' = true.

Fixpoint check_fit_precedes_test (fitted : bool) (evs : list Event) : bool :=
  match evs with
  | [] => true
  | e :: rest =>
      (if is_test_call e then fitted else true) &&
      check_fit_precedes_test (fitted || is_fit_return e) rest
  end.

(** The [with] blocks that are open after the events [evs], innermost first,
    when [stack] were open before them. *)
Fixpoint open_contexts (stack : list ContextManager) (evs : list Event)
  : list ContextManager :=
  match evs with
  | [] => stack
  | Enter context :: rest => open_contexts (context :: stack) rest
  | Exit _ :: rest => open_contexts (tail stack) rest
  | _ :: rest => open_contexts stack rest
  end.

(** Every call of [trainer.fit] happens inside the block of [context], and
    of no other block opened by these events. *)
Definition fit_runs_inside (context : ContextManager) (evs : list Event) : Prop :=
  ∀ pre e post, evs = pre ++ e :: post → is_fit_call e = true →
    open_contexts [] pre = [context].

Fixpoint check_fit_runs_inside (context : ContextManager)
    (stack : list ContextManager) (evs : list Event) : bool :=
  match evs with
  | [] => true
  | e :: rest =>
      (if is_fit_call e then bool_decide (stack = [context]) else true) &&
      check_fit_runs_inside context (open_contexts stack [e]) rest
  end.

(** A trace without the events of its [with] blocks. *)
Fixpoint without_contexts (evs : list Event) : list Event :=
  match evs with
  | [] => []
  | e :: rest =>
      if is_context_event e then without_contexts rest
      else e :: without_contexts rest
  end.

(** A framework in which no call raises. *)
Definition never_raises : Prop :=
  (∀ dset augment, returns (train_test_outcome dset augment)) ∧
  (∀ net, returns (construct_outcome net)) ∧
  (∀ gpus precision, returns (Trainer_outcome gpus precision)) ∧
  (∀ dataset kwargs, returns (DataLoader_outcome dataset kwargs)) ∧
  (∀ settings anomaly net params batches,
     returns (fit_outcome settings anomaly net params batches).2) ∧
  (∀ settings net params batches,
     returns (test_outcome settings net params batches)).

(** A framework in which training does the same with and without anomaly
    detection. *)
Definition anomaly_insensitive : Prop :=
  ∀ settings net params batches,
    fit_outcome settings true net params batches =
    fit_outcome settings false net params batches.

Definition is_test_return (e : Event) : bool :=
  match e with Returned (call_test _ _ _) _ => true | _ => false end.

(** The functions of the framework that the script calls. *)
Inductive Callee : Type :=
| to_train_test | to_Net | to_Trainer | to_DataLoader | to_set_printoptions
| to_fit | to_test.

Definition callee (c : Call) : Callee :=
  match c with
  | call_train_test _ _ => to_train_test
  | call_Net _ => to_Net
  | call_Trainer _ _ => to_Trainer
  | call_DataLoader _ _ => to_DataLoader
  | call_set_printoptions _ _ => to_set_printoptions
  | call_fit _ _ _ => to_fit
  | call_test _ _ _ => to_test
  end.

(** The calls that were started, in order. *)
Fixpoint callees (evs : list Event) : list Callee :=
  match evs with
  | [] => []
  | Called c :: rest => callee c :: callees rest
  | _ :: rest => callees rest
  end.

(** The calls of lines 59-86 in the order of the text. *)
Definition script_order : list Callee :=
  [to_train_test; to_Net; to_Trainer; to_DataLoader; to_DataLoader;
   to_set_printoptions; to_fit; to_test].

#[global] Instance Callee_eq_dec : EqDecision Callee.
Proof. solve_decision. Defined.

(** [e] is the return of a call to [f]. *)
Definition is_return_of (f : Callee) (e : Event) : bool :=
  match e with
  | Returned c _ => bool_decide (callee c = f)
  | _ => false
  end.

(** After a call that has not returned at once, no call is started. *)
Definition stops_at_the_failing_call (evs : list Event) : Prop :=
  ∀ pre c post, evs = pre ++ Called c :: post →
    (∃ e post', post = e :: post' ∧ is_return_of (callee c) e = true) ∨
    callees post = [].

Fixpoint check_stops_at_the_failing_call (evs : list Event) : bool :=
  match evs with
  | [] => true
  | Called c :: rest =>
      (match rest with
       | e :: _ => is_return_of (callee c) e
       | [] => false
       end || bool_decide (callees rest = [])) &&
      check_stops_at_the_failing_call rest
  | _ :: rest => check_stops_at_the_failing_call rest
  end.

(** [e] is an exception that some call into the framework raises. *)
Definition raised_by_framework (e : Exn) : Prop :=
  (∃ dset augment, train_test_outcome dset augment = inl e) ∨
  (∃ net, construct_outcome net = inl e) ∨
  (∃ gpus precision, Trainer_outcome gpus precision = inl e) ∨
  (∃ dataset kwargs, DataLoader_outcome dataset kwargs = inl e) ∨
  (∃ settings anomaly net params batches,
     (fit_outcome settings anomaly net params batches).2 = inl e) ∨
  (∃ settings net params batches,
     test_outcome settings net params batches = inl e).
End observations.

Section reports.
Context {T : Torch}.

(** A step reports both the loss and the accuracy of its batch. *)
Definition reports_loss_and_accuracy {A} (self : Model.t)
    (batch : Tensor * Tensor) (step : Py Model.Metrics A) : Prop :=
  Model.reports step (Model.batch_loss self batch) ∧
  Model.reports step (Model.batch_accuracy self batch).

End reports.

(** ** Instances to run the definitions on *)

Module example.

(** A registry of two datasets; the members of [dataset.Dataset] itself are
    declared in [dataset.py]. *)
Inductive Dataset : Type := MNIST | CIFAR10.

Definition Dataset_name (d : Dataset) : string :=
  match d with MNIST => "MNIST" | CIFAR10 => "CIFAR10" end.

#[export] Program Instance Dataset_enum : PyEnum Dataset := {|
  enum_members := [MNIST; CIFAR10];
  enum_name := Dataset_name;
|}.
Next Obligation. intros []; set_solver. Qed.
Next Obligation. by compute_done. Qed.

(** A framework in which every call succeeds; the parameters of a network
    count the epochs of training it has seen. *)
#[export] Instance counting : Framework Dataset := {|
  Data := string;
  Dims := Z;
  Labels := Z;
  Params := Z;
  train_test_outcome := λ dset _,
    match dset with
    | MNIST => inr ("mnist-train", "mnist-test", 784, 10)
    | CIFAR10 => inr ("cifar-train", "cifar-test", 3072, 10)
    end;
  construct_outcome := λ _, inr 0;
  Trainer_outcome := λ _ _, inr ();
  DataLoader_outcome := λ _ _, inr ();
  fit_outcome := λ _ _ _ params _, (params + 1, inr ());
  test_outcome := λ _ _ _ _, inr ();
|}.

(** Tensors as integers: the loss is the negated score of the target, the
    accuracy is 1 on a hit and 0 on a miss. *)
#[export] Instance integers : Torch := {|
  Tensor := Z;
  log_softmax := λ x _, x;
  nll_loss := λ input target, - input;
  argmax := λ x _, x;
  tensor_eq := λ a b, if a =? b then 1 else 0;
  float := λ x, x;
  mean := λ x, x;
|}.

(** Three letters outside ASCII with their upper-case forms, on the UTF-8
    bytes: dotless i (196 177) becomes I, long s (197 191) becomes S, sharp s
    (195 159) becomes SS.  Other text outside ASCII is left as it is. *)
Fixpoint upper_few (run : string) : string :=
  match run with
  | EmptyString => EmptyString
  | String c rest =>
      match rest with
      | EmptyString => String c EmptyString
      | String d rest' =>
          let c := N_of_ascii c in
          let d := N_of_ascii d in
          if ((c =? 196) && (d =? 177))%N then "I" +:+ upper_few rest'
          else if ((c =? 197) && (d =? 191))%N then "S" +:+ upper_few rest'
          else if ((c =? 195) && (d =? 159))%N then "SS" +:+ upper_few rest'
          else String (ascii_of_N c) (upper_few rest)
      end
  end.

#[export] Instance few_letters : Unicode := {| upper_non_ascii := upper_few |}.

(** No case mapping outside ASCII. *)
#[export] Instance ascii_only : Unicode := {| upper_non_ascii := λ run, run |}.

Definition identity : Model.t := {| Model.model := λ x, x |}.

Definition cli (dataset algorithm : string) : args.t :=
  {| args.dataset := dataset; args.algorithm := algorithm;
     args.augment := false; args.debug := false |}.

Definition fresh : World :=
  {| heap := []; trace := []; anomaly_enabled := false |}.


(** The same framework on a device that is too small: training stops with an
    exception after one epoch. *)
#[export] Instance out_of_memory : Framework Dataset := {|
  Data := string;
  Dims := Z;
  Labels := Z;
  Params := Z;
  train_test_outcome := λ dset _,
    match dset with
    | MNIST => inr ("mnist-train", "mnist-test", 784, 10)
    | CIFAR10 => inr ("cifar-train", "cifar-test", 3072, 10)
    end;
  construct_outcome := λ _, inr 0;
  Trainer_outcome := λ _ _, inr ();
  DataLoader_outcome := λ _ _, inr ();
  fit_outcome := λ _ _ _ params _,
    (params + 1, inl (ExternalError "CUDA out of memory"));
  test_outcome := λ _ _ _ _, inr ();
|}.

End example.

(** * Properties *)

(** ** Strings *)

Lemma append_nil (t : string) : "" +:+ t = t.
Proof. reflexivity. Qed.

Lemma append_cons (c : ascii) (s t : string) :
  String c s +:+ t = String c (s +:+ t).
Proof. reflexivity. Qed.

Lemma append_assoc (s t u : string) : (s +:+ t) +:+ u = s +:+ t +:+ u.
Proof.
  induction s as [|c s IH]; [done|].
  by rewrite !append_cons, IH.
Qed.

Lemma prefix_append (s t : string) : String.prefix s (s +:+ t) = true.
Proof.
  induction s as [|c s IH].
  - by destruct t.
  - rewrite append_cons. simpl. destruct (ascii_dec c c); [exact IH | done].
Qed.

Lemma contains_unfold (needle haystack : string) :
  contains needle haystack =
  String.prefix needle haystack ||
  match haystack with
  | EmptyString => false
  | String _ rest => contains needle rest
  end.
Proof. by destruct haystack. Qed.

Lemma substring_of_contains (s t : string) :
  substring_of s t → contains s t = true.
Proof.
  intros (pre & post & ->). induction pre as [|c pre IH].
  - rewrite append_nil, contains_unfold, prefix_append. done.
  - rewrite append_cons, contains_unfold, IH. apply orb_true_r.
Qed.

Lemma substring_of_refl (s : string) : substring_of s s.
Proof.
  exists "", "". rewrite append_nil.
  induction s as [|c s IH]; [done|]. by rewrite append_cons, <- IH.
Qed.

Lemma substring_of_append_l (s t u : string) :
  substring_of s t → substring_of s (u +:+ t).
Proof.
  intros (pre & post & ->). exists (u +:+ pre), post.
  by rewrite append_assoc.
Qed.

Lemma substring_of_append_r (s t u : string) :
  substring_of s t → substring_of s (t +:+ u).
Proof.
  intros (pre & post & ->). exists pre, (post +:+ u).
  by rewrite !append_assoc.
Qed.

Lemma substring_of_join (sep x : string) (l : list string) :
  x ∈ l → substring_of x (join sep l).
Proof.
  induction l as [|y l IH]; [by rewrite elem_of_nil|].
  rewrite elem_of_cons. intros [->|Hx].
  - destruct l; simpl; [apply substring_of_refl|].
    apply substring_of_append_r, substring_of_refl.
  - destruct l as [|z l]; [by apply elem_of_nil in Hx|].
    change (join sep (y :: z :: l)) with (y +:+ sep +:+ join sep (z :: l)).
    by apply substring_of_append_l, substring_of_append_l, IH.
Qed.

Lemma substring_of_str_list (x : string) (l : list string) :
  x ∈ l → substring_of x (str_list l).
Proof.
  intros Hx. unfold str_list.
  apply substring_of_append_l, substring_of_append_r.
  assert (Hq : substring_of x (repr_str x)).
  { unfold repr_str. apply substring_of_append_l, substring_of_append_r,
      substring_of_refl. }
  destruct Hq as (pre & post & Hq).
  destruct (substring_of_join ", " (repr_str x) (repr_str <$> l))
    as (pre' & post' & ->).
  { by apply list_elem_of_fmap_2. }
  rewrite Hq. exists (pre' +:+ pre), (post +:+ post').
  by rewrite !append_assoc.
Qed.

(** ** Enumerations *)

Section enum_facts.
Context {A : Type} {E : PyEnum A}.

Lemma member_map_name (a : A) : member_map !! enum_name a = Some a.
Proof.
  unfold member_map. apply elem_of_list_to_map_1.
  - rewrite <- list_fmap_compose. apply enum_names_NoDup.
  - apply (list_elem_of_fmap_2 (λ a, (enum_name a, a))), enum_members_all.
Qed.

Lemma member_map_unknown (key : string) :
  key ∉ names (A := A) → member_map (A := A) !! key = None.
Proof.
  intros Hkey. unfold member_map. apply not_elem_of_list_to_map_1.
  by rewrite <- list_fmap_compose.
Qed.

Lemma getitem_name (a : A) : getitem (enum_name a) = inr a.
Proof. unfold getitem. by rewrite member_map_name. Qed.

Lemma getitem_unknown (key : string) :
  key ∉ names (A := A) → getitem (A := A) key = inl (KeyError (repr_str key)).
Proof. intros Hkey. unfold getitem. by rewrite member_map_unknown. Qed.

Lemma name_in_names (a : A) : enum_name a ∈ names (A := A).
Proof. apply list_elem_of_fmap_2, enum_members_all. Qed.
End enum_facts.

Lemma Algorithm_names_upper {U : Unicode} (algo : algorithm.Algorithm.t) :
  upper (enum_name algo) = enum_name algo.
Proof. by destruct algo. Qed.

(** ** Resolution of the two names *)

Section resolution_facts.
Context {U : Unicode} {Dataset : Type} {E : PyEnum Dataset}.

Lemma resolve_dataset_known (arg : string) (dset : Dataset) :
  upper arg = enum_name dset → resolve_dataset arg = inr dset.
Proof. intros Harg. unfold resolve_dataset. by rewrite Harg, getitem_name. Qed.

Lemma resolve_dataset_unknown (arg : string) :
  upper arg ∉ dataset_names (Dataset := Dataset) →
  resolve_dataset (Dataset := Dataset) arg =
  inl (KeyError ("Invalid dataset (" +:+ arg +:+ "), must be in "
                 +:+ str_list (dataset_names (Dataset := Dataset)))).
Proof.
  intros Harg. unfold resolve_dataset. by rewrite getitem_unknown.
Qed.
End resolution_facts.

Lemma resolve_algorithm_known {U : Unicode} (arg : string)
    (algo : algorithm.Algorithm.t) :
  upper arg = enum_name algo → resolve_algorithm arg = inr algo.
Proof. intros Harg. unfold resolve_algorithm. by rewrite Harg, getitem_name. Qed.

Lemma resolve_algorithm_unknown {U : Unicode} (arg : string) :
  upper arg ∉ algorithm_names →
  resolve_algorithm arg =
  inl (KeyError ("Invalid algorithm (" +:+ arg +:+ "), must be in "
                 +:+ str_list algorithm_names)).
Proof.
  intros Harg. unfold resolve_algorithm. by rewrite getitem_unknown.
Qed.

Lemma invalid_name_message (kind arg : string) (valid : list string) :
  let msg := "Invalid " +:+ kind +:+ " (" +:+ arg +:+ "), must be in "
             +:+ str_list valid in
  contains arg msg = true ∧ ∀ name, name ∈ valid → contains name msg = true.
Proof.
  split.
  - apply substring_of_contains.
    do 3 apply substring_of_append_l.
    apply substring_of_append_r, substring_of_refl.
  - intros name Hname. apply substring_of_contains.
    do 5 apply substring_of_append_l.
    by apply substring_of_str_list.
Qed.

(** C3. A string whose upper-case form is the name of a member of the dataset
    enumeration resolves to that member, and likewise for the algorithm
    enumeration; the letter case of the input plays no part: two inputs with
    the same upper-case form resolve alike, and every respelling of an
    algorithm name resolves to that algorithm.  This holds whatever the
    upper-case mapping outside ASCII is. *)
Theorem resolution_succeeds_whatever_the_case :
  ∀ (U : Unicode) (Dataset : Type) (E : PyEnum Dataset) (arg : string),
    (∀ dset : Dataset,
       upper arg = enum_name dset → resolve_dataset arg = inr dset) ∧
    (∀ algo : algorithm.Algorithm.t,
       upper arg = enum_name algo → resolve_algorithm arg = inr algo) ∧
    (∀ (arg' : string) (dset : Dataset),
       upper arg' = upper arg → resolve_dataset arg = inr dset →
       resolve_dataset arg' = inr dset) ∧
    (∀ algo : algorithm.Algorithm.t,
       upper arg = upper (enum_name algo) → resolve_algorithm arg = inr algo).
Proof.
  intros U Dataset E arg. repeat split.
  - apply resolve_dataset_known.
  - apply resolve_algorithm_known.
  - intros arg' dset Hcase. unfold resolve_dataset. rewrite Hcase.
    by destruct (getitem (upper arg)) as [[]|].
  - intros algo Harg. apply resolve_algorithm_known.
    by rewrite Harg, Algorithm_names_upper.
Qed.

Lemma resolution_succeeds_whatever_the_case_witness :
  resolve_dataset (U := example.few_letters) (E := example.Dataset_enum)
    "mnıst" = inr example.MNIST ∧
  resolve_algorithm (U := example.few_letters) "lınear" =
    inr algorithm.Algorithm.LINEAR ∧
  resolve_dataset (U := example.few_letters) (E := example.Dataset_enum)
    "MnIst" = inr example.MNIST ∧
  resolve_algorithm (U := example.few_letters) "reſnet" =
    inr algorithm.Algorithm.RESNET.
Proof.
  pose proof (resolution_succeeds_whatever_the_case example.few_letters
                example.Dataset example.Dataset_enum "mnıst")
    as (Hd & _ & Hcase & _).
  pose proof (resolution_succeeds_whatever_the_case example.few_letters
                example.Dataset example.Dataset_enum "lınear")
    as (_ & Ha & _ & _).
  pose proof (resolution_succeeds_whatever_the_case example.few_letters
                example.Dataset example.Dataset_enum "reſnet")
    as (_ & _ & _ & Hr).
  split; [apply Hd; reflexivity|].
  split; [apply Ha; reflexivity|].
  split; [apply Hcase; [reflexivity | apply Hd; reflexivity]|].
  apply Hr; reflexivity.
Defined.

(** C4. A string whose upper-case form names no member of the dataset
    enumeration makes the resolution fail with a [KeyError]; the message
    quotes the input as it was typed and lists the name of every member.  The
    same holds for the algorithm enumeration, and both hold whatever the
    upper-case mapping outside ASCII is. *)
Theorem resolution_fails_with_the_valid_names :
  ∀ (U : Unicode) (Dataset : Type) (E : PyEnum Dataset) (arg : string),
    (upper arg ∉ dataset_names (Dataset := Dataset) →
     ∃ msg, resolve_dataset (Dataset := Dataset) arg = inl (KeyError msg) ∧
       msg = "Invalid dataset (" +:+ arg +:+ "), must be in "
             +:+ str_list (dataset_names (Dataset := Dataset)) ∧
       contains arg msg = true ∧
       ∀ dset : Dataset, contains (enum_name dset) msg = true) ∧
    (upper arg ∉ algorithm_names →
     ∃ msg, resolve_algorithm arg = inl (KeyError msg) ∧
       msg = "Invalid algorithm (" +:+ arg +:+ "), must be in "
             +:+ str_list algorithm_names ∧
       contains arg msg = true ∧
       ∀ algo : algorithm.Algorithm.t, contains (enum_name algo) msg = true).
Proof.
  intros U Dataset E arg. split; intros Harg; eexists.
  - split; [by apply resolve_dataset_unknown|]. split; [done|].
    destruct (invalid_name_message "dataset" arg
                (dataset_names (Dataset := Dataset))) as [Hin Hall].
    split; [exact Hin|]. intros dset. apply Hall, name_in_names.
  - split; [by apply resolve_algorithm_unknown|]. split; [done|].
    destruct (invalid_name_message "algorithm" arg algorithm_names)
      as [Hin Hall].
    split; [exact Hin|]. intros algo. apply Hall, name_in_names.
Qed.

Lemma resolution_fails_with_the_valid_names_witness :
  resolve_dataset (U := example.few_letters) (E := example.Dataset_enum)
    "NOTAREALSET" =
    inl (KeyError
           "Invalid dataset (NOTAREALSET), must be in ['MNIST', 'CIFAR10']") ∧
  resolve_algorithm (U := example.few_letters) "lİnear" =
    inl (KeyError
           "Invalid algorithm (lİnear), must be in ['LINEAR', 'DNN', 'CNN', 'SLIM', 'HIGHWAY_NETWORK', 'RESNET']").
Proof.
  destruct (resolution_fails_with_the_valid_names example.few_letters
              example.Dataset example.Dataset_enum "NOTAREALSET") as [Hd _].
  destruct (resolution_fails_with_the_valid_names example.few_letters
              example.Dataset example.Dataset_enum "lİnear") as [_ Ha].
  split.
  - destruct Hd as (msg & -> & -> & _); [compute_done|].
    reflexivity.
  - destruct Ha as (msg & -> & -> & _); [compute_done|].
    reflexivity.
Defined.

(** C5. With a dataset name that resolves to no member, the entry point
    raises the [KeyError] at once: the world is left as it was, so
    [train_and_evaluate] has not been entered, no data has been loaded and no
    network has been constructed, whatever the algorithm name is and whatever
    the upper-case mapping outside ASCII is. *)
Theorem invalid_dataset_fails_before_any_work :
  ∀ (U : Unicode) (Dataset : Type) (E : PyEnum Dataset)
    (F : Framework Dataset) (a : args.t) (w : World),
    upper (args.dataset a) ∉ dataset_names (Dataset := Dataset) →
    main a w =
      (w, inl (KeyError
                 ("Invalid dataset (" +:+ args.dataset a +:+ "), must be in "
                  +:+ str_list (dataset_names (Dataset := Dataset))))).
Proof.
  intros U Dataset E F a w Hname. unfold main.
  unfold mbind at 1, Py_bind at 1, lift at 1.
  by rewrite resolve_dataset_unknown.
Qed.

Lemma invalid_dataset_fails_before_any_work_witness :
  main (U := example.few_letters) (E := example.Dataset_enum)
    (F := example.counting)
    (example.cli "NOTAREALSET" "linear") example.fresh =
    (example.fresh,
     inl (KeyError
            "Invalid dataset (NOTAREALSET), must be in ['MNIST', 'CIFAR10']")).
Proof.
  apply (invalid_dataset_fails_before_any_work example.few_letters
           example.Dataset example.Dataset_enum example.counting
           (example.cli "NOTAREALSET" "linear") example.fresh).
  compute_done.
Defined.

(** ** The [Model] wrapper *)

(** C2, as the code has it.  For every batch, [validation_step] logs the loss
    of the batch under [val_loss] and its accuracy under [val_acc], and
    [test_step] logs them under [test_loss] and [test_acc]; each returns the
    two under the same names.  [training_step] logs one metric, the loss,
    under [train_loss], and returns it. *)
Theorem validation_and_test_report_loss_and_accuracy :
  ∀ (T : Torch) (self : Model.t) (batch : Tensor * Tensor) (i : Z)
    (so_far : Model.Metrics),
    let loss := Model.batch_loss self batch in
    let accuracy := Model.batch_accuracy self batch in
    Model.validation_step self batch i so_far =
      (so_far ++ [("val_loss", loss); ("val_acc", accuracy)],
       inr [("val_loss", loss); ("val_acc", accuracy)]) ∧
    Model.test_step self batch i so_far =
      (so_far ++ [("test_loss", loss); ("test_acc", accuracy)],
       inr [("test_loss", loss); ("test_acc", accuracy)]) ∧
    Model.training_step self batch i so_far =
      (so_far ++ [("train_loss", loss)], inr loss) ∧
    reports_loss_and_accuracy self batch (Model.validation_step self batch i) ∧
    reports_loss_and_accuracy self batch (Model.test_step self batch i) ∧
    Model.logged (Model.training_step self batch i) = [("train_loss", loss)].
Proof.
  intros T self [x y] i so_far loss accuracy. subst loss accuracy.
  unfold reports_loss_and_accuracy, Model.reports, Model.logged.
  unfold Model.validation_step, Model.test_step, Model.training_step,
    Model.log.
  cbv [mbind mret Py_bind Py_ret fst]. rewrite <- !app_assoc.
  repeat split.
  - exists "val_loss". apply list_elem_of_here.
  - exists "val_acc". apply list_elem_of_further, list_elem_of_here.
  - exists "test_loss". apply list_elem_of_here.
  - exists "test_acc". apply list_elem_of_further, list_elem_of_here.
Qed.

(** C2, as stated, fails for the training phase: with integers for tensors
    and the identity for the network, [training_step] on the batch [(0, 0)]
    logs the loss [0] and nothing else, while the accuracy of that batch
    is [1]. *)
Lemma training_step_reports_no_accuracy :
  Model.logged (T := example.integers)
    (Model.training_step example.identity (0, 0) 0) = [("train_loss", 0)] ∧
  Model.batch_accuracy (T := example.integers) example.identity (0, 0) = 1 ∧
  ¬ reports_loss_and_accuracy (T := example.integers) example.identity (0, 0)
      (Model.training_step example.identity (0, 0) 0).
Proof.
  split; [reflexivity|]. split; [reflexivity|].
  intros [_ [name Hname]]. cbv in Hname.
  apply list_elem_of_singleton in Hname. discriminate Hname.
Qed.

(** C7. [forward] is [log_softmax] of the wrapped network's output along
    dimension 1; the loss that each of the three steps logs and returns is
    [nll_loss] of that against the labels; the optimizer is Adagrad over the
    parameters with learning rate 1/1000. *)
Theorem loss_is_nll_of_log_softmax_and_optimizer_is_Adagrad :
  ∀ (T : Torch) (self : Model.t) (x y : Tensor) (i : Z)
    (so_far : Model.Metrics) (P : Type) (parameters : P),
    let loss := nll_loss (log_softmax (Model.model self x) 1) y in
    Model.forward self x = log_softmax (Model.model self x) 1 ∧
    (Model.training_step self (x, y) i so_far).2 = inr loss ∧
    ("train_loss", loss) ∈ (Model.training_step self (x, y) i so_far).1 ∧
    (∃ accuracy,
       (Model.validation_step self (x, y) i so_far).2 =
         inr [("val_loss", loss); ("val_acc", accuracy)]) ∧
    ("val_loss", loss) ∈ (Model.validation_step self (x, y) i so_far).1 ∧
    (∃ accuracy,
       (Model.test_step self (x, y) i so_far).2 =
         inr [("test_loss", loss); ("test_acc", accuracy)]) ∧
    ("test_loss", loss) ∈ (Model.test_step self (x, y) i so_far).1 ∧
    Model.configure_optimizers parameters = Adagrad parameters (1 # 1000).
Proof.
  intros T self x y i so_far P parameters loss. subst loss.
  repeat split; try (eexists; reflexivity); cbv -[elem_of app]; set_solver.
Qed.

(** C9. On the same batch, with the same wrapped network and the same log so
    far, [validation_step] and [test_step] compute the same loss and the same
    accuracy; what they return and what they log differs in the names
    [val_loss], [val_acc] against [test_loss], [test_acc] only. *)
Theorem validation_step_and_test_step_agree :
  ∀ (T : Torch) (self : Model.t) (batch : Tensor * Tensor) (i j : Z)
    (so_far : Model.Metrics),
    ∃ loss accuracy,
      loss = Model.batch_loss self batch ∧
      accuracy = Model.batch_accuracy self batch ∧
      Model.validation_step self batch i so_far =
        (so_far ++ [("val_loss", loss); ("val_acc", accuracy)],
         inr [("val_loss", loss); ("val_acc", accuracy)]) ∧
      Model.test_step self batch j so_far =
        (so_far ++ [("test_loss", loss); ("test_acc", accuracy)],
         inr [("test_loss", loss); ("test_acc", accuracy)]).
Proof.
  intros T self [x y] i j so_far. eexists _, _.
  split; [reflexivity|]. split; [reflexivity|].
  unfold Model.validation_step, Model.test_step, Model.log.
  cbv [mbind mret Py_bind Py_ret]. by rewrite <- !app_assoc.
Qed.

(** ** The dispatch *)

Section dispatch_facts.
Context {Dataset : Type} {F : Framework Dataset}.

Lemma select_model_construct (algo : algorithm.Algorithm.t)
    (dimensions : Dims) (labels : Labels) :
  select_model algo dimensions labels =
  construct (documented_mapping algo dimensions labels).
Proof. by destruct algo. Qed.
End dispatch_facts.

(** C1. The dispatch of [train_and_evaluate] makes, for each of the six
    algorithms, the constructor call of its architecture with the fixed
    hyperparameters: 10 layers for the deep network, 100 layers for the
    highway network, [n = 3] for the residual network.  [SLIM] selects
    [Slim(dimensions, labels)], the repeated branch notwithstanding, and the
    dispatch as a whole is the documented mapping. *)
Theorem dispatch_selects_the_documented_architecture :
  ∀ (Dataset : Type) (F : Framework Dataset)
    (dimensions : Dims) (labels : Labels),
    select_model algorithm.Algorithm.LINEAR dimensions labels =
      construct (algorithm.Linear dimensions labels) ∧
    select_model algorithm.Algorithm.DNN dimensions labels =
      construct (algorithm.DNN dimensions labels 10) ∧
    select_model algorithm.Algorithm.CNN dimensions labels =
      construct (algorithm.CNN dimensions labels) ∧
    select_model algorithm.Algorithm.SLIM dimensions labels =
      construct (algorithm.Slim dimensions labels) ∧
    select_model algorithm.Algorithm.HIGHWAY_NETWORK dimensions labels =
      construct (algorithm.HighwayNetwork dimensions labels 100) ∧
    select_model algorithm.Algorithm.RESNET dimensions labels =
      construct (algorithm.ResidualNetwork dimensions labels 3) ∧
    (∀ algo, select_model algo dimensions labels =
             construct (documented_mapping algo dimensions labels)).
Proof.
  intros Dataset F dimensions labels.
  repeat split; try reflexivity. intros algo. apply select_model_construct.
Qed.

(** ** Runs of [train_and_evaluate] *)

Section run_facts.
Context {Dataset : Type} {F : Framework Dataset}.

Lemma heap_lookup_add (h l : list Obj) (k : nat) :
  (h ++ l) !! (length h + k)%nat = l !! k.
Proof. rewrite lookup_app_r by lia. f_equal. lia. Qed.

Lemma heap_lookup_first (h l : list Obj) : (h ++ l) !! length h = l !! 0%nat.
Proof. rewrite <- (heap_lookup_add h l 0). f_equal. lia. Qed.

Lemma heap_insert_first (h l : list Obj) (o : Obj) :
  <[length h := o]> (h ++ l) = h ++ <[0%nat := o]> l.
Proof. rewrite <- (insert_app_r h l 0). f_equal. lia. Qed.

Lemma swallows_suppress_nil (e : Exn) : swallows (suppress []) e = false.
Proof. unfold swallows. apply bool_decide_eq_false, not_elem_of_nil. Qed.

Lemma swallows_detect_anomaly (prev : bool) (e : Exn) :
  swallows (detect_anomaly prev) e = false.
Proof. reflexivity. Qed.

Lemma open_contexts_app (stack : list ContextManager) (evs evs' : list Event) :
  open_contexts stack (evs ++ evs') =
  open_contexts (open_contexts stack evs) evs'.
Proof.
  revert stack. induction evs as [|e evs IH]; intros stack; [done|].
  destruct e; simpl; apply IH.
Qed.

Lemma check_fit_precedes_test_sound (fitted : bool) (evs : list Event) :
  check_fit_precedes_test fitted evs = true →
  ∀ pre e post, evs = pre ++ e :: post → is_test_call e = true →
    fitted = true ∨ ∃ e', e' ∈ pre ∧ is_fit_return e' = true.
Proof.
  revert fitted. induction evs as [|x evs IH]; intros fitted Hcheck pre e post.
  - by destruct pre.
  - simpl in Hcheck. apply andb_true_iff in Hcheck as [Hx Hrest].
    destruct pre as [|y pre]; simpl; intros [= <- ->] He.
    + left. by rewrite He in Hx.
    + destruct (IH _ Hrest pre e post eq_refl He) as [Hor|(e' & Hin & He')].
      * apply orb_true_iff in Hor as [->|Hx']; [by left|].
        right. exists x. split; [apply list_elem_of_here | done].
      * right. exists e'. split; [by apply list_elem_of_further | done].
Qed.

Lemma check_fit_precedes_test_spec (evs : list Event) :
  check_fit_precedes_test false evs = true → fit_precedes_test evs.
Proof.
  intros Hcheck pre e post Hevs He.
  by destruct (check_fit_precedes_test_sound _ _ Hcheck pre e post Hevs He).
Qed.

Lemma check_fit_runs_inside_sound (context : ContextManager)
    (stack : list ContextManager) (evs : list Event) :
  check_fit_runs_inside context stack evs = true →
  ∀ pre e post, evs = pre ++ e :: post → is_fit_call e = true →
    open_contexts stack pre = [context].
Proof.
  revert stack. induction evs as [|x evs IH]; intros stack Hcheck pre e post.
  - by destruct pre.
  - simpl in Hcheck. apply andb_true_iff in Hcheck as [Hx Hrest].
    destruct pre as [|y pre]; simpl; intros [= <- ->] He.
    + rewrite He in Hx. by apply bool_decide_eq_true in Hx.
    + rewrite <- (IH _ Hrest pre e post eq_refl He). by destruct x.
Qed.

Lemma check_fit_runs_inside_spec (context : ContextManager) (evs : list Event) :
  check_fit_runs_inside context [] evs = true → fit_runs_inside context evs.
Proof. intros Hcheck pre e post. by apply check_fit_runs_inside_sound. Qed.
End run_facts.

(** Symbolic execution of the script: unfold the statements, read and write
    the store at the references that were handed out, and split on the
    outcome of each call into the framework. *)
Ltac exec :=
  cbv beta iota zeta delta
    [mbind mret Py_bind Py_ret emit alloc store lift raise deref type_error
     is_anomaly_enabled set_anomaly_enabled heap trace anomaly_enabled
     dataset_train_test construct Model_init pl_Trainer data_DataLoader
     torch_set_printoptions torch_autograd_detect_anomaly contextlib_suppress
     trainer_settings wrapped_model network loader_contents context_manager
     trainer_fit trainer_test enter exit with_ training_context fst snd].

Ltac heap_norm :=
  rewrite <- ?app_assoc, ?length_app; cbn [length app];
  rewrite <- ?Nat.add_assoc; cbn [Nat.add];
  rewrite ?heap_lookup_add, ?heap_lookup_first, ?heap_insert_first,
    ?swallows_suppress_nil, ?swallows_detect_anomaly;
  cbn [lookup list_lookup insert list_insert].

Ltac split_outcome :=
  match goal with
  | H : train_test_outcome ?d ?a = _ |- context [train_test_outcome ?d ?a] =>
      rewrite H
  | H : construct_outcome ?n = _ |- context [construct_outcome ?n] =>
      rewrite H
  | H : Trainer_outcome ?g ?p = _ |- context [Trainer_outcome ?g ?p] =>
      rewrite H
  | H : DataLoader_outcome ?d ?k = _ |- context [DataLoader_outcome ?d ?k] =>
      rewrite H
  | |- context [train_test_outcome ?d ?a] =>
      destruct (train_test_outcome d a) as [?|[[[? ?] ?] ?]] eqn:?
  | |- context [select_model ?a ?d ?l] =>
      rewrite (select_model_construct a d l)
  | |- context [construct_outcome ?n] =>
      destruct (construct_outcome n) as [?|?] eqn:?
  | |- context [Trainer_outcome ?g ?p] =>
      destruct (Trainer_outcome g p) as [?|[]] eqn:?
  | |- context [DataLoader_outcome ?d ?k] =>
      destruct (DataLoader_outcome d k) as [?|[]] eqn:?
  | Hins : anomaly_insensitive |- context [fit_outcome ?s true ?n ?p ?b] =>
      rewrite (Hins s n p b)
  | |- context [fit_outcome ?s ?a ?n ?p ?b] =>
      destruct (fit_outcome s a n p b) as [? [?|[]]] eqn:?
  | |- context [test_outcome ?s ?n ?p ?b] =>
      destruct (test_outcome s n p b) as [?|[]] eqn:?
  end.

Ltac run_script :=
  unfold train_and_evaluate;
  repeat first [ progress exec | progress heap_norm | split_outcome ].

(** In a framework that never raises, no call has raised. *)
Ltac no_raise Hnr :=
  exfalso;
  destruct Hnr as (Htt & Hc & Htr & Hdl & Hfit & Htest);
  match goal with
  | H : train_test_outcome ?d ?a = inl _ |- _ =>
      destruct (Htt d a) as [? ?]; congruence
  | H : construct_outcome ?n = inl _ |- _ =>
      destruct (Hc n) as [? ?]; congruence
  | H : Trainer_outcome ?g ?p = inl _ |- _ =>
      destruct (Htr g p) as [? ?]; congruence
  | H : DataLoader_outcome ?d ?k = inl _ |- _ =>
      destruct (Hdl d k) as [? ?]; congruence
  | H : fit_outcome ?s ?a ?n ?p ?b = (_, inl _) |- _ =>
      destruct (Hfit s a n p b) as [? Hret]; rewrite H in Hret;
      discriminate Hret
  | H : test_outcome ?s ?n ?p ?b = inl _ |- _ =>
      destruct (Htest s n p b) as [? ?]; congruence
  end.

(** C6. In every run of [train_and_evaluate], a call of [trainer.test] comes
    after a return of [trainer.fit].  When the function returns, the last
    events of the run are: the training block is entered, [trainer.fit] is
    called on the loader of the training set and returns, the block is left,
    [trainer.test] is called on the loader of the test set and returns.  In a
    framework in which no call raises, the function returns. *)
Theorem training_precedes_testing :
  ∀ (Dataset : Type) (F : Framework Dataset)
    (algo : algorithm.Algorithm.t) (dset : Dataset) (augment debug : bool)
    (kwargs : Kwargs) (w : World),
    let run := train_and_evaluate algo dset augment debug kwargs w in
    ∃ evs,
      trace run.1 = trace w ++ evs ∧
      fit_precedes_test evs ∧
      (returns run.2 →
       ∃ pre context trainer lightning_model train_loader test_loader
         train test dimensions labels,
         evs = pre ++
           [Enter context;
            Called (call_fit trainer lightning_model train_loader);
            Returned (call_fit trainer lightning_model train_loader) None;
            Exit context;
            Called (call_test trainer lightning_model test_loader);
            Returned (call_test trainer lightning_model test_loader) None] ∧
         train_test_outcome dset augment =
           inr (train, test, dimensions, labels) ∧
         heap run.1 !! train_loader = Some (LoaderObj train kwargs) ∧
         heap run.1 !! test_loader =
           Some (LoaderObj test [("batch_size", PyInt 1024)])) ∧
      (never_raises → returns run.2).
Proof.
  intros Dataset F algo dset augment debug kwargs [h t a] run. subst run.
  destruct (train_and_evaluate _ _ _ _ _ _) as [w' r] eqn:Hrun.
  revert Hrun. destruct debug; run_script; intros [= <- <-]; cbn [fst snd trace heap].
  all: eexists; split; [reflexivity|].
  all: match goal with |- fit_precedes_test ?l ∧ _ => pose (evs := l) end.
  all: split; [by apply check_fit_precedes_test_spec|].
  all: split; [|first [ by eexists | intros Hnr; no_raise Hnr ]].
  all: try by intros [? [=]].
  all: intros _; exists (take 12 evs);
    eexists _, _, _, _, _, _, _, _, _;
    split; [reflexivity|]; split; [reflexivity|];
    split; heap_norm; reflexivity.
Qed.

Lemma counting_never_raises : never_raises (F := example.counting).
Proof.
  repeat split; intros; try (by eexists).
  match goal with d : example.Dataset |- _ => destruct d end; by eexists.
Defined.

Lemma training_precedes_testing_witness :
  returns
    (train_and_evaluate (F := example.counting) algorithm.Algorithm.DNN
       example.MNIST false false [("batch_size", PyInt 128)] example.fresh).2.
Proof.
  destruct (training_precedes_testing example.Dataset example.counting
              algorithm.Algorithm.DNN example.MNIST false false
              [("batch_size", PyInt 128)] example.fresh)
    as (evs & _ & _ & _ & Hreturns).
  apply Hreturns. exact counting_never_raises.
Defined.

Ltac in_trace :=
  cbn [trace]; rewrite elem_of_app; right;
  repeat first [ apply list_elem_of_here | apply list_elem_of_further ].

(** C10. What [train_and_evaluate] returns is the reference that the selected
    constructor of [supervised.algorithm] returned, to an object that did not
    exist before the run.  At the end of the run that object is the network
    with the parameters training has left in it.  The [Model] wrapper is a
    different object, which refers to the network and which is what the
    trainer was given.  In a framework in which no call raises, the function
    does return. *)
Theorem returns_the_network_not_the_wrapper :
  ∀ (Dataset : Type) (F : Framework Dataset)
    (algo : algorithm.Algorithm.t) (dset : Dataset) (augment debug : bool)
    (kwargs : Kwargs) (w : World),
    (never_raises →
     ∃ w' model,
       train_and_evaluate algo dset augment debug kwargs w = (w', inr model)) ∧
    (∀ (w' : World) (model : ref),
       train_and_evaluate algo dset augment debug kwargs w = (w', inr model) →
       ∃ train test dimensions labels params params'
         lightning_model trainer train_loader,
         let net := documented_mapping algo dimensions labels in
         train_test_outcome dset augment =
           inr (train, test, dimensions, labels) ∧
         Returned (call_Net net) (Some model) ∈ trace w' ∧
         heap w !! model = None ∧
         construct_outcome net = inr params ∧
         fit_outcome (1, 16) (debug || anomaly_enabled w) net params
           (train, kwargs) = (params', inr ()) ∧
         heap w' !! model = Some (Network net params') ∧
         heap w' !! lightning_model = Some (LightningModule model) ∧
         lightning_model ≠ model ∧
         Called (call_fit trainer lightning_model train_loader) ∈ trace w').
Proof.
  intros Dataset F algo dset augment debug kwargs [h t a]. split.
  - intros Hnr.
    destruct debug; run_script; first [ by eexists _, _ | no_raise Hnr ].
  - intros w' model.
    destruct debug; run_script; intros [= <- <-]; cbn [heap trace anomaly_enabled].
    all: eexists _, _, _, _, _, _, (length h + 1)%nat, _, _; cbn zeta.
    all: split; [reflexivity|].
    all: split; [in_trace|].
    all: split; [by apply lookup_ge_None_2|].
    all: split; [eassumption|].
    all: split; [eassumption|].
    all: split; [by rewrite heap_lookup_first|].
    all: split; [by rewrite heap_lookup_add|].
    all: split; [lia|].
    all: in_trace.
Qed.

Lemma returns_the_network_not_the_wrapper_witness :
  let run :=
    train_and_evaluate (F := example.counting) algorithm.Algorithm.RESNET
      example.CIFAR10 true true [] example.fresh in
  run.2 = inr 0%nat ∧
  ∃ lightning_model,
    lightning_model ≠ 0%nat ∧
    heap run.1 !! lightning_model = Some (LightningModule 0%nat).
Proof.
  intros run. split; [reflexivity|].
  destruct (proj2 (returns_the_network_not_the_wrapper example.Dataset
                     example.counting algorithm.Algorithm.RESNET
                     example.CIFAR10 true true [] example.fresh)
              run.1 0%nat)
    as (train & test & dimensions & labels & params & params' & lm & tr & ld
        & _ & _ & _ & _ & _ & _ & Hwrapper & Hne & _).
  { vm_compute. reflexivity. }
  exists lm. split; assumption.
Defined.

Section with_facts.
Context {Dataset : Type} {F : Framework Dataset}.

(** The outcome of a [with] block whose [__exit__] swallows nothing, from
    the outcome of its body. *)
Lemma with_suppress_nil {A} (context : ref) (body : Py World A) (w : World) :
  heap w !! context = Some (ContextObj (suppress [])) →
  let inside := body (emit (Enter (suppress [])) w).1 in
  with_ context body w =
    ((emit (Exit (suppress [])) inside.1).1,
     match inside.2 with inl e => inl e | inr _ => inr () end).
Proof.
  intros Hcontext. unfold with_, context_manager, deref.
  cbv [mbind Py_bind]. rewrite Hcontext. exec.
  destruct (body _) as [w2 [e|x]]; [|done].
  exec. by rewrite swallows_suppress_nil.
Qed.

Lemma with_detect_anomaly {A} (context : ref) (prev : bool)
    (body : Py World A) (w : World) :
  heap w !! context = Some (ContextObj (detect_anomaly prev)) →
  let inside :=
    body (set_anomaly_enabled true
            (emit (Enter (detect_anomaly prev)) w).1).1 in
  with_ context body w =
    ((emit (Exit (detect_anomaly prev))
        (set_anomaly_enabled prev inside.1).1).1,
     match inside.2 with inl e => inl e | inr _ => inr () end).
Proof.
  intros Hcontext. unfold with_, context_manager, deref.
  cbv [mbind Py_bind]. rewrite Hcontext. exec.
  by destruct (body _) as [w2 [e|x]].
Qed.
End with_facts.

(** C8. The training call runs inside the block of one context manager:
    [torch.autograd.detect_anomaly()] if the debug flag is set, and
    [contextlib.suppress()] if it is not.  Whenever the calls before the
    block have returned, the block is entered, [trainer.fit] is called as the
    next thing, with anomaly detection on if the flag is set and in the mode
    the function found otherwise, and the block is left afterwards, whether
    training returns or raises.  No call of [trainer.fit] is made outside
    the block.  A block of [contextlib.suppress()] does nothing: its body
    runs in the world as it is, and the block ends as its body ends, raise
    included.  A block of [detect_anomaly] runs its body with anomaly
    detection on and puts the earlier mode back.  If training itself does
    the same in both modes, the two settings of the flag give the same
    result, the same networks, loaders and trainer and, the events of the
    block aside, the same trace. *)
Theorem anomaly_detection_wraps_training_iff_debug :
  ∀ (Dataset : Type) (F : Framework Dataset)
    (algo : algorithm.Algorithm.t) (dset : Dataset) (augment : bool)
    (kwargs : Kwargs) (w : World),
    (∀ debug : bool,
       let run := train_and_evaluate algo dset augment debug kwargs w in
       let context :=
         if debug then detect_anomaly (anomaly_enabled w) else suppress [] in
       ((∃ prev, context = detect_anomaly prev) ↔ debug = true) ∧
       (∃ evs,
          trace run.1 = trace w ++ evs ∧
          fit_runs_inside context evs ∧
          open_contexts [] evs = []) ∧
       (∀ train test dimensions labels params,
          let net := documented_mapping algo dimensions labels in
          train_test_outcome dset augment =
            inr (train, test, dimensions, labels) →
          construct_outcome net = inr params →
          Trainer_outcome 1 16 = inr () →
          DataLoader_outcome train kwargs = inr () →
          DataLoader_outcome test [("batch_size", PyInt 1024)] = inr () →
          ∃ pre post trainer lightning_model train_loader,
            trace run.1 =
              trace w ++ pre ++
              Enter context ::
              Called (call_fit trainer lightning_model train_loader) :: post ∧
            callees pre =
              [to_train_test; to_Net; to_Trainer; to_DataLoader;
               to_DataLoader; to_set_printoptions] ∧
            Exit context ∈ post ∧
            heap run.1 !! train_loader = Some (LoaderObj train kwargs) ∧
            heap run.1 !! length (heap w) =
              Some (Network net
                      (fit_outcome (1, 16) (debug || anomaly_enabled w) net
                         params (train, kwargs)).1))) ∧
    (∀ (A : Type) (context : ref) (body : Py World A) (w0 : World),
       heap w0 !! context = Some (ContextObj (suppress [])) →
       let inside := body (emit (Enter (suppress [])) w0).1 in
       with_ context body w0 =
         ((emit (Exit (suppress [])) inside.1).1,
          match inside.2 with inl e => inl e | inr _ => inr () end)) ∧
    (∀ (A : Type) (context : ref) (prev : bool) (body : Py World A)
       (w0 : World),
       heap w0 !! context = Some (ContextObj (detect_anomaly prev)) →
       let inside :=
         body (set_anomaly_enabled true
                 (emit (Enter (detect_anomaly prev)) w0).1).1 in
       with_ context body w0 =
         ((emit (Exit (detect_anomaly prev))
             (set_anomaly_enabled prev inside.1).1).1,
          match inside.2 with inl e => inl e | inr _ => inr () end)) ∧
    (anomaly_insensitive →
     let on := train_and_evaluate algo dset augment true kwargs w in
     let off := train_and_evaluate algo dset augment false kwargs w in
     on.2 = off.2 ∧
     take (length (heap w) + 5) (heap on.1) =
       take (length (heap w) + 5) (heap off.1) ∧
     length (heap on.1) = length (heap off.1) ∧
     anomaly_enabled on.1 = anomaly_enabled off.1 ∧
     ∃ evs_on evs_off,
       trace on.1 = trace w ++ evs_on ∧
       trace off.1 = trace w ++ evs_off ∧
       without_contexts evs_on = without_contexts evs_off).
Proof.
  intros Dataset F algo dset augment kwargs [h t a].
  split; [|split; [|split]].
  - intros debug run context. subst run context. split; [|split].
    + destruct debug; split; try done; [by eexists | by intros [? [=]]].
    + destruct (train_and_evaluate _ _ _ _ _ _) as [w' r] eqn:Hrun.
      revert Hrun.
      destruct debug; run_script; intros [= <- <-];
        cbn [fst trace anomaly_enabled].
      all: eexists; split; [reflexivity|].
      all: split; [|reflexivity].
      all: apply check_fit_runs_inside_spec; try reflexivity.
      all: by destruct a.
    + intros train test dimensions labels params net Htt Hc Htr Hd1 Hd2.
      subst net.
      destruct (train_and_evaluate _ _ _ _ _ _) as [w' r] eqn:Hrun.
      revert Hrun.
      destruct debug; cbn [orb anomaly_enabled]; run_script;
        intros [= <- <-]; cbn [fst trace heap].
      all: eexists [_; _; _; _; _; _; _; _; _; _; _; _], _, _, _, _.
      all: split; [reflexivity|].
      all: split; [reflexivity|].
      all: split;
        [repeat first [ apply list_elem_of_here | apply list_elem_of_further ]|].
      all: split; [by rewrite (heap_lookup_add h _ 3)|].
      all: by rewrite heap_lookup_first.
  - intros A context body w0. apply with_suppress_nil.
  - intros A context prev body w0. apply with_detect_anomaly.
  - intros Hins on off. subst on off.
    destruct (train_and_evaluate _ _ _ true _ _) as [w1 r1] eqn:Hon.
    destruct (train_and_evaluate _ _ _ false _ _) as [w2 r2] eqn:Hoff.
    revert Hon Hoff. destruct a; run_script.
    all: intros [= <- <-] [= <- <-]; cbn [fst snd heap trace anomaly_enabled].
    all: split; [reflexivity|].
    all: split; [first [ reflexivity | by rewrite !take_app_add ]|].
    all: split; [first [ reflexivity | by rewrite !length_app ]|].
    all: split; [reflexivity|].
    all: eexists _, _; split; [reflexivity|]; split; reflexivity.
Qed.

Lemma counting_anomaly_insensitive : anomaly_insensitive (F := example.counting).
Proof. intros settings net params batches. reflexivity. Defined.

Lemma anomaly_detection_wraps_training_iff_debug_witness :
  let on :=
    train_and_evaluate (F := example.counting) algorithm.Algorithm.LINEAR
      example.MNIST true true [] example.fresh in
  let off :=
    train_and_evaluate (F := example.counting) algorithm.Algorithm.LINEAR
      example.MNIST true false [] example.fresh in
  on.2 = off.2 ∧ take 5 (heap on.1) = take 5 (heap off.1).
Proof.
  intros on off.
  destruct (anomaly_detection_wraps_training_iff_debug example.Dataset
              example.counting algorithm.Algorithm.LINEAR example.MNIST true
              [] example.fresh) as (_ & _ & _ & Hsame).
  destruct (Hsame counting_anomaly_insensitive) as (Hresult & Hheap & _).
  split; assumption.
Defined.

(** * Further properties of the entry point *)

Lemma ascii_upper_idempotent (c : ascii) :
  ascii_upper (ascii_upper c) = ascii_upper c.
Proof. by destruct c as [[] [] [] [] [] [] [] []]. Qed.

Lemma ascii_upper_outside_ascii (c : ascii) :
  is_ascii c = false → ascii_upper c = c.
Proof. by destruct c as [[] [] [] [] [] [] [] []]. Qed.

Lemma append_empty_r (s : string) : s +:+ "" = s.
Proof. induction s as [|c s IH]; [done|]. by rewrite append_cons, IH. Qed.

(** Without a case mapping outside ASCII, [upper] works byte by byte. *)
Lemma upper_from_ascii_only (run s : string) :
  upper_from (U := example.ascii_only) run s =
  run +:+ upper_from (U := example.ascii_only) "" s.
Proof.
  revert run. induction s as [|c s IH]; intros run.
  - simpl. rewrite append_empty_r. by destruct run.
  - simpl. destruct (is_ascii c).
    + by destruct run.
    + rewrite IH, (IH ("" +:+ String c "")). by rewrite append_assoc.
Qed.

Lemma upper_cons_ascii_only (c : ascii) (s : string) :
  upper (U := example.ascii_only) (String c s) =
  String (ascii_upper c) (upper (U := example.ascii_only) s).
Proof.
  unfold upper. simpl. destruct (is_ascii c) eqn:Hc; [done|].
  by rewrite upper_from_ascii_only, ascii_upper_outside_ascii.
Qed.

Lemma upper_idempotent_ascii_only (s : string) :
  upper (U := example.ascii_only) (upper (U := example.ascii_only) s) =
  upper (U := example.ascii_only) s.
Proof.
  induction s as [|c s IH]; [done|].
  by rewrite !upper_cons_ascii_only, ascii_upper_idempotent, IH.
Qed.

Section enum_inverse.
Context {A : Type} {E : PyEnum A}.

Lemma getitem_inv (key : string) (a : A) :
  getitem key = inr a → enum_name a = key.
Proof.
  unfold getitem. destruct (member_map !! key) as [a'|] eqn:Hkey; [|done].
  intros [= ->]. apply elem_of_list_to_map_2 in Hkey.
  apply list_elem_of_fmap in Hkey as (a' & [= -> ->] & _). done.
Qed.

Lemma getitem_returns (key : string) :
  returns (getitem (A := A) key) ↔ key ∈ names (A := A).
Proof.
  split.
  - intros [a Ha]. apply getitem_inv in Ha as <-. apply name_in_names.
  - intros Hkey. apply list_elem_of_fmap in Hkey as (a & -> & _).
    exists a. apply getitem_name.
Qed.
End enum_inverse.

Section resolution_inverse.
Context {U : Unicode} {Dataset : Type} {E : PyEnum Dataset}.

Lemma resolve_dataset_inv (arg : string) (dset : Dataset) :
  resolve_dataset arg = inr dset → upper arg = enum_name dset.
Proof.
  unfold resolve_dataset.
  destruct (getitem (upper arg)) as [[]|d] eqn:Hget; try done.
  intros [= ->]. symmetry. by apply getitem_inv.
Qed.
End resolution_inverse.

Lemma resolve_algorithm_inv {U : Unicode} (arg : string)
    (algo : algorithm.Algorithm.t) :
  resolve_algorithm arg = inr algo → upper arg = enum_name algo.
Proof.
  unfold resolve_algorithm.
  destruct (getitem (upper arg)) as [[]|d] eqn:Hget; try done.
  intros [= ->]. symmetry. by apply getitem_inv.
Qed.

(** X1. Resolution at the entry point yields a member exactly when the
    upper-case form of the input is the name of that member, and it succeeds
    exactly when the upper-case form of the input is among the names of the
    enumeration; this holds for datasets and for algorithms, whatever the
    upper-case mapping outside ASCII is. *)
Theorem resolution_succeeds_exactly_on_the_names :
  ∀ (U : Unicode) (Dataset : Type) (E : PyEnum Dataset) (arg : string),
    (∀ dset : Dataset,
       resolve_dataset arg = inr dset ↔ upper arg = enum_name dset) ∧
    (returns (resolve_dataset (Dataset := Dataset) arg) ↔
     upper arg ∈ dataset_names (Dataset := Dataset)) ∧
    (∀ algo : algorithm.Algorithm.t,
       resolve_algorithm arg = inr algo ↔ upper arg = enum_name algo) ∧
    (returns (resolve_algorithm arg) ↔ upper arg ∈ algorithm_names).
Proof.
  intros U Dataset E arg. split; [|split; [|split]].
  - intros dset. split; [apply resolve_dataset_inv | apply resolve_dataset_known].
  - split.
    + intros [dset Hd]. apply resolve_dataset_inv in Hd as ->.
      apply name_in_names.
    + intros Hin. apply list_elem_of_fmap in Hin as (dset & Hd & _).
      exists dset. by apply resolve_dataset_known.
  - intros algo.
    split; [apply resolve_algorithm_inv | apply resolve_algorithm_known].
  - split.
    + intros [algo Ha]. apply resolve_algorithm_inv in Ha as ->.
      apply name_in_names.
    + intros Hin. apply list_elem_of_fmap in Hin as (algo & Ha & _).
      exists algo. by apply resolve_algorithm_known.
Qed.

(** X2. [str.upper()] applied twice gives what it gives applied once.  For
    every upper-case mapping with that property, a member of the dataset
    enumeration can be selected from the command line exactly when its name
    is its own upper-case form: the input is upper-cased before the lookup,
    so a member whose name changes under [upper] is out of reach, although
    the error message lists it. *)
Theorem dataset_is_selectable_iff_its_name_is_upper_case :
  ∀ (U : Unicode) (Dataset : Type) (E : PyEnum Dataset),
    (∀ s : string, upper (upper s) = upper s) →
    ∀ dset : Dataset,
      (∃ arg, resolve_dataset arg = inr dset) ↔
      upper (enum_name dset) = enum_name dset.
Proof.
  intros U Dataset E Hidem dset. split.
  - intros [arg Harg]. apply resolve_dataset_inv in Harg as <-.
    apply Hidem.
  - intros Hname. exists (enum_name dset). by apply resolve_dataset_known.
Qed.

Lemma dataset_is_selectable_iff_its_name_is_upper_case_witness :
  ∃ arg,
    resolve_dataset (U := example.ascii_only) (E := example.Dataset_enum) arg =
    inr example.CIFAR10.
Proof.
  apply (dataset_is_selectable_iff_its_name_is_upper_case example.ascii_only
           example.Dataset example.Dataset_enum upper_idempotent_ascii_only
           example.CIFAR10).
  reflexivity.
Defined.

(** X3. With a valid dataset name and an algorithm name that resolves to no
    member, the entry point raises the [KeyError] of the algorithm before
    [train_and_evaluate] is entered: the world is left as it was.  This holds
    whatever the upper-case mapping outside ASCII is. *)
Theorem invalid_algorithm_fails_before_any_work :
  ∀ (U : Unicode) (Dataset : Type) (E : PyEnum Dataset)
    (F : Framework Dataset) (a : args.t) (w : World) (dset : Dataset),
    upper (args.dataset a) = enum_name dset →
    upper (args.algorithm a) ∉ algorithm_names →
    main a w =
      (w, inl (KeyError
                 ("Invalid algorithm (" +:+ args.algorithm a
                  +:+ "), must be in " +:+ str_list algorithm_names))).
Proof.
  intros U Dataset E F a w dset Hd Ha. unfold main.
  rewrite (resolve_dataset_known _ _ Hd), (resolve_algorithm_unknown _ Ha).
  reflexivity.
Qed.

Lemma invalid_algorithm_fails_before_any_work_witness :
  main (U := example.few_letters) (E := example.Dataset_enum)
    (F := example.counting)
    (example.cli "mnıst" "svm") example.fresh =
    (example.fresh,
     inl (KeyError
            "Invalid algorithm (svm), must be in ['LINEAR', 'DNN', 'CNN', 'SLIM', 'HIGHWAY_NETWORK', 'RESNET']")).
Proof.
  apply (invalid_algorithm_fails_before_any_work example.few_letters
           example.Dataset example.Dataset_enum example.counting
           (example.cli "mnıst" "svm") example.fresh example.MNIST).
  - reflexivity.
  - compute_done.
Defined.

(** X5. The help text of each positional argument lists the name of every
    member of its enumeration. *)
Theorem help_lists_every_name :
  ∀ (Dataset : Type) (E : PyEnum Dataset),
    (∀ dset : Dataset,
       contains (enum_name dset) (dataset_help (Dataset := Dataset)) = true) ∧
    (∀ algo : algorithm.Algorithm.t,
       contains (enum_name algo) algorithm_help = true).
Proof.
  intros Dataset E. split.
  - intros dset. apply substring_of_contains.
    unfold dataset_help. do 2 apply substring_of_append_l.
    apply substring_of_str_list, name_in_names.
  - intros algo. apply substring_of_contains.
    unfold algorithm_help. do 2 apply substring_of_append_l.
    apply substring_of_str_list, name_in_names.
Qed.

(** * Further properties of [train_and_evaluate] *)

Section trace_facts.
Context {Dataset : Type} {F : Framework Dataset}.

Lemma existsb_elem_of (p : Event → bool) (evs : list Event) :
  existsb p evs = true ↔ ∃ e, e ∈ evs ∧ p e = true.
Proof.
  rewrite existsb_exists. split; intros (e & He & Hp); exists e;
    by rewrite ?list_elem_of_In in *.
Qed.
End trace_facts.

(** An exception that a run ends in is the one the failing call raised. *)
Ltac blame :=
  unfold raised_by_framework;
  match goal with
  | H : train_test_outcome _ _ = inl _ |- _ => left; eexists _, _; exact H
  | H : construct_outcome _ = inl _ |- _ => right; left; eexists; exact H
  | H : Trainer_outcome _ _ = inl _ |- _ =>
      do 2 right; left; eexists _, _; exact H
  | H : DataLoader_outcome _ _ = inl _ |- _ =>
      do 3 right; left; eexists _, _; exact H
  | H : fit_outcome _ _ _ _ _ = (_, inl _) |- _ =>
      do 4 right; left; eexists _, _, _, _, _; by rewrite H
  | H : test_outcome _ _ _ _ = inl _ |- _ =>
      do 5 right; eexists _, _, _, _; exact H
  end.

(** X6. An exception that [train_and_evaluate] ends in is an exception that a
    call into the framework raised: the function raises nothing of its own
    (the [NotImplementedError] of the dispatch is out of reach for the six
    algorithms) and hands on what it receives unchanged. *)
Theorem exceptions_come_from_the_framework :
  ∀ (Dataset : Type) (F : Framework Dataset)
    (algo : algorithm.Algorithm.t) (dset : Dataset) (augment debug : bool)
    (kwargs : Kwargs) (w : World) (e : Exn),
    (train_and_evaluate algo dset augment debug kwargs w).2 = inl e →
    raised_by_framework e.
Proof.
  intros Dataset F algo dset augment debug kwargs [h t a] e.
  destruct (train_and_evaluate _ _ _ _ _ _) as [w' r] eqn:Hrun.
  revert Hrun. destruct debug; run_script; intros [= <- <-]; cbn [snd].
  all: intros [= <-]; blame.
Qed.

Lemma exceptions_come_from_the_framework_witness :
  raised_by_framework (F := example.out_of_memory)
    (ExternalError "CUDA out of memory").
Proof.
  apply (exceptions_come_from_the_framework example.Dataset
           example.out_of_memory algorithm.Algorithm.CNN example.CIFAR10
           false true []
           {| heap := []; trace := []; anomaly_enabled := false |}).
  vm_compute. reflexivity.
Defined.


(** X8. In every run of [train_and_evaluate] the calls into the framework
    are made in the order of the text, each at most once (the loader
    constructor twice): the calls a run has started are a prefix of
    [train_test], constructor, [Trainer], [DataLoader], [DataLoader],
    [set_printoptions], [fit], [test], and a run that returns has made all
    of them. *)
Theorem calls_follow_the_script_order :
  ∀ (Dataset : Type) (F : Framework Dataset)
    (algo : algorithm.Algorithm.t) (dset : Dataset) (augment debug : bool)
    (kwargs : Kwargs) (w : World),
    let run := train_and_evaluate algo dset augment debug kwargs w in
    ∃ evs,
      trace run.1 = trace w ++ evs ∧
      callees evs `prefix_of` script_order ∧
      (returns run.2 → callees evs = script_order).
Proof.
  intros Dataset F algo dset augment debug kwargs [h t a] run. subst run.
  destruct (train_and_evaluate _ _ _ _ _ _) as [w' r] eqn:Hrun.
  revert Hrun. destruct debug; run_script; intros [= <- <-];
    cbn [fst snd trace].
  all: eexists; split; [reflexivity|].
  all: split; [eexists; reflexivity|].
  all: first [ by intros [? [=]] | by intros _ ].
Qed.

Lemma calls_follow_the_script_order_witness :
  ∃ evs,
    trace (train_and_evaluate (F := example.counting)
             algorithm.Algorithm.LINEAR example.MNIST false false []
             example.fresh).1 = evs ∧
    callees evs = script_order.
Proof.
  destruct (calls_follow_the_script_order example.Dataset example.counting
              algorithm.Algorithm.LINEAR example.MNIST false false []
              example.fresh) as (evs & Htrace & _ & Hall).
  exists evs. split; [exact Htrace|].
  apply Hall. by eexists.
Defined.

(** X9. [train_and_evaluate] returns exactly when [trainer.test] has
    returned: a run that raises has no return of [trainer.test] in its
    trace, and a run that returns has one. *)
Theorem returns_iff_testing_completed :
  ∀ (Dataset : Type) (F : Framework Dataset)
    (algo : algorithm.Algorithm.t) (dset : Dataset) (augment debug : bool)
    (kwargs : Kwargs) (w : World),
    let run := train_and_evaluate algo dset augment debug kwargs w in
    ∃ evs,
      trace run.1 = trace w ++ evs ∧
      (returns run.2 ↔ ∃ e, e ∈ evs ∧ is_test_return e = true).
Proof.
  intros Dataset F algo dset augment debug kwargs [h t a] run. subst run.
  destruct (train_and_evaluate _ _ _ _ _ _) as [w' r] eqn:Hrun.
  revert Hrun. destruct debug; run_script; intros [= <- <-];
    cbn [fst snd trace].
  all: eexists; split; [reflexivity|].
  all: rewrite <- existsb_elem_of; cbn.
  all: split;
    first [ by intros [? [=]] | by intros [=] | done | by intros _; eexists ].
Qed.

(** X10. When [train_and_evaluate] returns, [trainer.test] has run on the
    parameters that [trainer.fit] left in the network: the wrapper shares the
    network with the caller, so testing sees the trained network, on the test
    set with batches of 1024. *)
Theorem testing_sees_the_trained_network :
  ∀ (Dataset : Type) (F : Framework Dataset)
    (algo : algorithm.Algorithm.t) (dset : Dataset) (augment debug : bool)
    (kwargs : Kwargs) (w w' : World) (model : ref),
    train_and_evaluate algo dset augment debug kwargs w = (w', inr model) →
    ∃ train test dimensions labels params params',
      let net := documented_mapping algo dimensions labels in
      train_test_outcome dset augment =
        inr (train, test, dimensions, labels) ∧
      construct_outcome net = inr params ∧
      fit_outcome (1, 16) (debug || anomaly_enabled w) net params
        (train, kwargs) = (params', inr ()) ∧
      test_outcome (1, 16) net params'
        (test, [("batch_size", PyInt 1024)]) = inr () ∧
      heap w' !! model = Some (Network net params').
Proof.
  intros Dataset F algo dset augment debug kwargs [h t a] w' model.
  destruct debug; run_script; intros [= <- <-]; cbn [heap anomaly_enabled].
  all: eexists _, _, _, _, _, _; cbn zeta.
  all: split; [reflexivity|].
  all: split; [eassumption|].
  all: split; [eassumption|].
  all: split; [eassumption|].
  all: by rewrite heap_lookup_first.
Qed.

Lemma testing_sees_the_trained_network_witness :
  ∃ net params',
    heap (train_and_evaluate (F := example.counting)
            algorithm.Algorithm.HIGHWAY_NETWORK example.MNIST true false []
            example.fresh).1 !! 0%nat =
    Some (Network net params').
Proof.
  destruct (testing_sees_the_trained_network example.Dataset example.counting
              algorithm.Algorithm.HIGHWAY_NETWORK example.MNIST true false []
              example.fresh
              (train_and_evaluate (F := example.counting)
                 algorithm.Algorithm.HIGHWAY_NETWORK example.MNIST true false
                 [] example.fresh).1 0%nat)
    as (train & test & dimensions & labels & params & params' & _
        & _ & _ & _ & Hheap).
  { vm_compute. reflexivity. }
  eexists _, params'. exact Hheap.
Defined.

Section stop_facts.
Context {Dataset : Type} {F : Framework Dataset}.

Lemma check_stops_at_the_failing_call_spec (evs : list Event) :
  check_stops_at_the_failing_call evs = true → stops_at_the_failing_call evs.
Proof.
  induction evs as [|x evs IH]; intros Hcheck pre c post.
  - by destruct pre.
  - destruct pre as [|y pre]; simpl; intros [= -> ->].
    + simpl in Hcheck. apply andb_true_iff in Hcheck as [Hc _].
      apply orb_true_iff in Hc as [Hc|Hc].
      * left. destruct post as [|e post']; [done|]. by exists e, post'.
      * right. by apply bool_decide_eq_true in Hc.
    + apply (IH ltac:(destruct y; simpl in Hcheck;
                       [apply andb_true_iff in Hcheck as [_ ?]|..]; done)
               pre c post eq_refl).
Qed.
End stop_facts.

(** X11. [train_and_evaluate] stops at the first call into the framework
    that raises: in every run, a call that is started either returns at once
    or is the last call of the run. *)
Theorem run_stops_at_the_failing_call :
  ∀ (Dataset : Type) (F : Framework Dataset)
    (algo : algorithm.Algorithm.t) (dset : Dataset) (augment debug : bool)
    (kwargs : Kwargs) (w : World),
    let run := train_and_evaluate algo dset augment debug kwargs w in
    ∃ evs, trace run.1 = trace w ++ evs ∧ stops_at_the_failing_call evs.
Proof.
  intros Dataset F algo dset augment debug kwargs [h t a] run. subst run.
  destruct (train_and_evaluate _ _ _ _ _ _) as [w' r] eqn:Hrun.
  revert Hrun. destruct debug; run_script; intros [= <- <-]; cbn [fst trace].
  all: eexists; split; [reflexivity|].
  all: by apply check_stops_at_the_failing_call_spec.
Qed.
